(** * Carbon footprint tracker: the emission calculator and the summary
    aggregator of [backend/main.go], embedded in Rocq.

    Numbers are Go [float64] values, embedded as Rocq's primitive binary64
    floats, so that every arithmetic step rounds exactly as the program's
    does (each operation rounded on its own, no fused multiply-add).
    Strings are byte strings.  Go maps are finite maps ([gmap]).  Instants
    ([time.Time]) are points of the UTC time line, counted in seconds
    since the Unix epoch; the server's clock is read in UTC, and nothing
    below depends on a finer resolution.  The HTTP framework and the
    storage engine are outside the repository: a request arrives decoded,
    and the table is the list of its rows. *)

From Stdlib Require Import ZArith Floats Uint63 String Ascii List Lia Bool.
From Stdlib Require Import DecimalString DecimalN Sorted.
From Equations Require Import Equations.
From Equations.Prop Require Import Logic.
From stdpp Require Import base option list gmap strings.
Import ListNotations.

Set Warnings "-inexact-float,-register-all".

Local Open Scope Z_scope.

(** ** 64-bit numbers *)

Module Int64.
Definition min_int : Z := - 2 ^ 63.
Definition max_int : Z := 2 ^ 63 - 1.

Definition in_range (z : Z) : bool := (min_int <=? z) && (z <=? max_int).

(** Two's-complement reduction of an integer to the [int64] range. *)
Definition wrap (z : Z) : Z := (z + 2 ^ 63) mod 2 ^ 64 - 2 ^ 63.
End Int64.

Module Float64.
(** The integer part of a finite float (rounding toward zero), read off
    its sign, mantissa and exponent; [None] for infinities and NaN. *)
Definition truncate (x : float) : option Z :=
  match Prim2SF x with
  | S754_zero _ => Some 0
  | S754_finite s m e =>
      let a := if 0 <=? e then Z.shiftl (Z.pos m) e
               else Z.shiftr (Z.pos m) (- e) in
      Some (if s then - a else a)
  | S754_infinity _ | S754_nan => None
  end.

(** The nearest float of a natural number below 2^63 (ties to even). *)
Definition of_nonneg (n : Z) : float :=
  if n <? 2 ^ 63 then of_uint63 (Uint63.of_Z n) else 0x1p63%float.

(** Go's conversion [float64(i)] of an [int64]. *)
Definition of_int64 (i : Z) : float :=
  if i <? 0 then (- of_nonneg (- i))%float else of_nonneg i.
End Float64.

(** ** Values of dynamic type

    What [any] holds once a JSON document is decoded. *)

Inductive any : Type :=
  | JNull
  | JBool (b : bool)
  | JNumber (x : float)
  | JString (s : string)
  | JArray (l : list any)
  | JObject (m : gmap string any).

(** ** Instants *)

Definition Time := Z.

(** [t.After(u)] *)
Definition time_After (t u : Time) : bool := u <? t.

(** [t.AddDate(0, 0, days)]: in UTC every calendar day has 86400 seconds. *)
Definition time_AddDate_days (t : Time) (days : Z) : Time := t + days * 86400.

(** ** Data model (main.go, lines 24-56) *)

Module Activity.
Record t := mk {
  ID : N;
  Category : string;
  Type_ : string;
  Quantity : float;
  Unit : string;
  Meta : string;
  EmissionKg : float;
  Date : Time;
  CreatedAt : Time
}.
End Activity.

Module CreateActivityDTO.
Record t := mk {
  Category : string;
  Type_ : string;
  Quantity : float;
  Unit : string;
  Meta : option (gmap string any);
  Date : string
}.
End CreateActivityDTO.

Module DailyPoint.
Record t := mk { Date : string; Kg : float }.
End DailyPoint.

Module SummaryResponse.
Record t := mk {
  From : string;
  To : string;
  TotalKg : float;
  ByCategory : gmap string float;
  ByDay : list DailyPoint.t
}.
End SummaryResponse.

(** What a handler writes with [c.JSON]. *)
Inductive Response (A : Type) : Type :=
  | StatusOK (body : A)
  | StatusBadRequest (error : string).
Arguments StatusOK {A} body.
Arguments StatusBadRequest {A} error.

(** ** The library functions the program calls

    The Go standard library is not part of the repository.  What the
    program needs of it is collected in one interface; the definitions
    and theorems below hold for every implementation of it. *)

Class GoLib := {
  (** [strings.ToLower] and [strings.TrimSpace] *)
  strings_ToLower : string -> string;
  strings_TrimSpace : string -> string;
  (** [time.Parse("2006-01-02", s)]: the instant, or an error *)
  time_Parse : string -> option Time;
  (** [t.Format("2006-01-02")] *)
  time_Format : Time -> string;
  (** [json.Marshal] on a decoded JSON object *)
  json_Marshal : gmap string any -> option string;
  (** The result of converting to [int64] a float whose integer part does
      not fit (or that has none): the language leaves it to the
      implementation. *)
  int64_unrepresentable : float -> Z
}.

Section Program.
Context {lib : GoLib}.

(** Go's conversion [int64(x)] of a [float64]: the fraction is dropped. *)
Definition int64 (x : float) : Z :=
  match Float64.truncate x with
  | Some z => if Int64.in_range z then z
              else Int64.wrap (int64_unrepresentable x)
  | None => Int64.wrap (int64_unrepresentable x)
  end.

Definition float64 (i : Z) : float := Float64.of_int64 i.

(** ** Helpers (main.go, lines 303-319) *)

Definition mathRound (x : float) : float :=
  if (x <? 0)%float then float64 (int64 (x - 0.5)%float)
  else float64 (int64 (x + 0.5)%float).

Definition round2 (v : float) : float :=
  (mathRound (v * 100.0) / 100.0)%float.

Definition roundMap (m : gmap string float) : gmap string float :=
  round2 <$> m.

(** ** Emission calculator (main.go, lines 222-290) *)

Definition computeEmission (category typ : string) (qty : float)
    (unit : string) (meta : option (gmap string any)) : float :=
  let carPerKm := 0.192%float in
  let busPerKm := 0.105%float in
  let trainPerKm := 0.041%float in
  let bikePerKm := 0.0%float in
  let airPerKm := 0.255%float in
  let kWhFactor := 0.7%float in
  let lpgKgFactor := 3.0%float in
  let meatHeavy := 7.0%float in
  let vegetarian := 3.0%float in
  let vegan := 2.0%float in
  let shoppingFactorPerThousand := 1.5%float in
  let category := strings_ToLower category in
  let typ := strings_ToLower typ in
  let unit := strings_ToLower unit in
  if String.eqb category "transport" then
    if String.eqb typ "car" then round2 (qty * carPerKm)
    else if String.eqb typ "bus" then round2 (qty * busPerKm)
    else if String.eqb typ "train" then round2 (qty * trainPerKm)
    else if String.eqb typ "bike" || String.eqb typ "walk" then 0.0%float
    else if String.eqb typ "flight" then round2 (qty * airPerKm)
    else 0.0%float
  else if String.eqb category "energy" then
    if String.eqb typ "electricity" then round2 (qty * kWhFactor)
    else if String.eqb typ "lpg" then round2 (qty * lpgKgFactor)
    else 0.0%float
  else if String.eqb category "food" then
    if String.eqb typ "meat_heavy_day" then meatHeavy
    else if String.eqb typ "vegetarian_day" then vegetarian
    else if String.eqb typ "vegan_day" then vegan
    else 0.0%float
  else if String.eqb category "shopping" then
    round2 ((qty / 1000.0) * shoppingFactorPerThousand)
  else if String.eqb category "other" then
    if String.eqb unit "kgco2e" || String.eqb unit "kg" then round2 qty
    else 0.0%float
  else 0.0%float.

(** ** Storage

    The table of activities, in insertion order.  Storage failures are
    outside the model. *)

Definition DB := list Activity.t.

Definition nextID (db : DB) : N :=
  N.succ (fold_right N.max 0%N (map Activity.ID db)).

(** [DB.Create(&item)]: the row gets its key and creation stamp. *)
Definition db_Create (stamp : Time) (db : DB) (item : Activity.t)
    : Activity.t * DB :=
  let row := Activity.mk (nextID db) (Activity.Category item)
               (Activity.Type_ item) (Activity.Quantity item)
               (Activity.Unit item) (Activity.Meta item)
               (Activity.EmissionKg item) (Activity.Date item) stamp in
  (row, db ++ [row]).

(** [Order("date asc")]: a stable insertion sort on the date column
    (rows of equal date keep their table order). *)
Fixpoint insertByDate (it : Activity.t) (l : list Activity.t)
    : list Activity.t :=
  match l with
  | [] => [it]
  | x :: l' =>
      if Activity.Date it <=? Activity.Date x then it :: x :: l'
      else x :: insertByDate it l'
  end.

Definition orderByDate (l : list Activity.t) : list Activity.t :=
  fold_right insertByDate [] l.

(** [DB.Where("date BETWEEN ? AND ?", from, to).Order("date asc").Find] *)
Definition findBetween (db : DB) (from to : Time) : list Activity.t :=
  orderByDate
    (List.filter
       (fun it => (from <=? Activity.Date it) && (Activity.Date it <=? to))
       db).

(** ** Creating an activity (main.go, lines 104-148) *)

Definition jsonMarshal (v : gmap string any) : option string := json_Marshal v.

(** The request body is taken already decoded; of [ShouldBindJSON] the
    model keeps the [binding:"required"] rule on category and type (the
    wording of the validator's message is not modelled). *)
Definition createActivity (now : Time) (db : DB) (dto : CreateActivityDTO.t)
    : Response Activity.t * DB :=
  if String.eqb (CreateActivityDTO.Category dto) ""
     || String.eqb (CreateActivityDTO.Type_ dto) ""
  then (StatusBadRequest "required field missing", db)
  else
    let parsed :=
      if String.eqb (strings_TrimSpace (CreateActivityDTO.Date dto)) ""
      then Some now
      else time_Parse (CreateActivityDTO.Date dto) in
    match parsed with
    | None => (StatusBadRequest "invalid date, use YYYY-MM-DD", db)
    | Some d =>
        let emission :=
          computeEmission (CreateActivityDTO.Category dto)
            (CreateActivityDTO.Type_ dto) (CreateActivityDTO.Quantity dto)
            (CreateActivityDTO.Unit dto) (CreateActivityDTO.Meta dto) in
        let metaJSON :=
          match CreateActivityDTO.Meta dto with
          | Some m =>
              match jsonMarshal m with Some b => b | None => "{}" end
          | None => "{}"
          end in
        let item :=
          Activity.mk 0%N (CreateActivityDTO.Category dto)
            (CreateActivityDTO.Type_ dto) (CreateActivityDTO.Quantity dto)
            (CreateActivityDTO.Unit dto) metaJSON emission d 0 in
        let '(row, db') := db_Create now db item in
        (StatusOK row, db')
    end.

(** ** Summary (main.go, lines 164-216) *)

(** [m[k] += v] on a Go map: a missing key reads as zero. *)
Definition addAt (m : gmap string float) (k : string) (v : float)
    : gmap string float :=
  <[k := (default 0%float (m !! k) + v)%float]> m.

(** The running state of the loop over the fetched items. *)
Record Sums := mkSums {
  total : float;
  byCat : gmap string float;
  byDay : gmap string float
}.

(** One iteration of the loop of lines 195-200. *)
Definition accumulate (s : Sums) (it : Activity.t) : Sums :=
  let key := time_Format (Activity.Date it) in
  mkSums (total s + Activity.EmissionKg it)%float
         (addAt (byCat s) (Activity.Category it) (Activity.EmissionKg it))
         (addAt (byDay s) key (Activity.EmissionKg it)).

Definition sumItems (items : list Activity.t) : Sums :=
  fold_left accumulate items (mkSums 0%float ∅ ∅).

(** The loop of lines 204-207, started at [d] with the points appended so
    far. *)
Equations? fillDays (byDay : gmap string float) (to d : Time)
    (points : list DailyPoint.t) : list DailyPoint.t
    by wf (Z.to_nat (to - d + 1)) lt :=
  fillDays byDay to d points with inspect (time_After d to) => {
    | exist _ true _ := points;
    | exist _ false Hle :=
        let key := time_Format d in
        fillDays byDay to (time_AddDate_days d 1)
          (points ++ [DailyPoint.mk key (default 0%float (byDay !! key))])
  }.
Proof.
  unfold time_After in Hle. unfold time_AddDate_days. lia.
Qed.

(** Lines 191-215: the response computed from the fetched items. *)
Definition summarize (items : list Activity.t) (from to : Time)
    : SummaryResponse.t :=
  let s := sumItems items in
  let points := fillDays (byDay s) to from [] in
  SummaryResponse.mk (time_Format from) (time_Format to)
    (round2 (total s)) (roundMap (byCat s)) points.

(** Lines 165-183: a blank query parameter takes its default, another one
    is parsed. *)
Definition dateParam (s : string) (dflt : Time) : option Time :=
  if String.eqb (strings_TrimSpace s) "" then Some dflt else time_Parse s.

(** [nowFrom] and [nowTo] are what the two calls of [time.Now] return. *)
Definition summary (nowFrom nowTo : Time) (db : DB) (fromStr toStr : string)
    : Response SummaryResponse.t :=
  match dateParam fromStr (time_AddDate_days nowFrom (-29)) with
  | None => StatusBadRequest "invalid from"
  | Some from =>
      match dateParam toStr nowTo with
      | None => StatusBadRequest "invalid to"
      | Some to => StatusOK (summarize (findBetween db from to) from to)
      end
  end.

End Program.

(** ** A reference implementation of the library interface

    ASCII letters and blanks, the proleptic Gregorian calendar in UTC, and
    the conversion of an x86-64 processor.  It is what the worked examples
    run on. *)

Module Reference.

Fixpoint mapBytes (f : ascii -> ascii) (s : string) : string :=
  match s with
  | EmptyString => EmptyString
  | String c s' => String (f c) (mapBytes f s')
  end.

Definition lowerByte (c : ascii) : ascii :=
  let n := N_of_ascii c in
  if ((65 <=? n) && (n <=? 90))%N then ascii_of_N (n + 32) else c.

Definition ToLower (s : string) : string := mapBytes lowerByte s.

(** space, and the control characters tab to carriage return *)
Definition isSpace (c : ascii) : bool :=
  let n := N_of_ascii c in
  ((n =? 32) || ((9 <=? n) && (n <=? 13)))%N.

Fixpoint trimLeft (s : string) : string :=
  match s with
  | EmptyString => EmptyString
  | String c s' => if isSpace c then trimLeft s' else s
  end.

Fixpoint trimRight (s : string) : string :=
  match s with
  | EmptyString => EmptyString
  | String c s' =>
      match trimRight s' with
      | EmptyString => if isSpace c then EmptyString
                       else String c EmptyString
      | r => String c r
      end
  end.

Definition TrimSpace (s : string) : string := trimRight (trimLeft s).

(** *** Calendar *)

Definition isLeap (y : Z) : bool :=
  (y mod 4 =? 0) && (negb (y mod 100 =? 0) || (y mod 400 =? 0)).

Definition daysIn (y m : Z) : Z :=
  if m =? 2 then (if isLeap y then 29 else 28)
  else if (m =? 4) || (m =? 6) || (m =? 9) || (m =? 11) then 30
  else 31.

(** Days from 1970-01-01 to the civil date [y]-[m]-[d]. *)
Definition daysFromCivil (y m d : Z) : Z :=
  let y' := if m <=? 2 then y - 1 else y in
  let era := y' / 400 in
  let yoe := y' - era * 400 in
  let doy := (153 * (if 2 <? m then m - 3 else m + 9) + 2) / 5 + d - 1 in
  let doe := yoe * 365 + yoe / 4 - yoe / 100 + doy in
  era * 146097 + doe - 719468.

(** The civil date, as (year, month, day), of a day counted from
    1970-01-01. *)
Definition civilFromDays (z : Z) : Z * Z * Z :=
  let z := z + 719468 in
  let era := z / 146097 in
  let doe := z - era * 146097 in
  let yoe := (doe - doe / 1460 + doe / 36524 - doe / 146096) / 365 in
  let doy := doe - (365 * yoe + yoe / 4 - yoe / 100) in
  let mp := (5 * doy + 2) / 153 in
  let d := doy - (153 * mp + 2) / 5 + 1 in
  let m := if mp <? 10 then mp + 3 else mp - 9 in
  let y := yoe + era * 400 in
  (if m <=? 2 then y + 1 else y, m, d).

(** *** Decimal numbers *)

Definition digit (c : ascii) : option Z :=
  let n := Z.of_N (N_of_ascii c) in
  if (48 <=? n) && (n <=? 57) then Some (n - 48) else None.

Fixpoint digits (s : string) (acc : Z) : option Z :=
  match s with
  | EmptyString => Some acc
  | String c s' =>
      match digit c with
      | Some k => digits s' (10 * acc + k)
      | None => None
      end
  end.

Fixpoint zeros (n : nat) : string :=
  match n with
  | O => EmptyString
  | S n' => String "0" (zeros n')
  end.

(** The number in decimal, padded with zeros to [width] digits, with a
    sign when negative. *)
Definition appendInt (x : Z) (width : nat) : string :=
  let ds := NilZero.string_of_uint (N.to_uint (Z.abs_N x)) in
  let padded := (zeros (width - String.length ds) ++ ds)%string in
  if x <? 0 then String "-" padded else padded.

(** *** Layout 2006-01-02 *)

Definition Format (t : Z) : string :=
  let '(y, m, d) := civilFromDays (t / 86400) in
  (appendInt y 4 ++ "-" ++ appendInt m 2 ++ "-" ++ appendInt d 2)%string.

Definition Parse (s : string) : option Z :=
  if negb (Nat.eqb (String.length s) 10) then None
  else if negb (String.eqb (substring 4 1 s) "-") then None
  else if negb (String.eqb (substring 7 1 s) "-") then None
  else
    match digits (substring 0 4 s) 0, digits (substring 5 2 s) 0,
          digits (substring 8 2 s) 0 with
    | Some y, Some m, Some d =>
        if (1 <=? m) && (m <=? 12) && (1 <=? d) && (d <=? daysIn y m)
        then Some (daysFromCivil y m d * 86400)
        else None
    | _, _, _ => None
    end.

(** Only the empty object is rendered: the examples carry no other
    meta. *)
Definition Marshal (m : gmap string any) : option string :=
  match map_to_list m with
  | [] => Some "{}"%string
  | _ :: _ => None
  end.

(** The "integer indefinite" value of the x86-64 conversion. *)
Definition unrepresentable (x : float) : Z := Int64.min_int.

Definition lib : GoLib := {|
  strings_ToLower := ToLower;
  strings_TrimSpace := TrimSpace;
  time_Parse := Parse;
  time_Format := Format;
  json_Marshal := Marshal;
  int64_unrepresentable := unrepresentable
|}.

End Reference.

(** ** The factor table of the specification (section 4.1)

    The rows of the table, to state what the calculator is compared
    with. *)

Module FactorTable.

(** (category, type, kg CO2e per unit of quantity) *)
Definition perUnit : list (string * string * float) :=
  [ ("transport", "car", 0.192%float);
    ("transport", "bus", 0.105%float);
    ("transport", "train", 0.041%float);
    ("transport", "flight", 0.255%float);
    ("energy", "electricity", 0.7%float);
    ("energy", "lpg", 3.0%float) ].

(** (category, type, kg CO2e per entry) *)
Definition flat : list (string * string * float) :=
  [ ("food", "meat_heavy_day", 7.0%float);
    ("food", "vegetarian_day", 3.0%float);
    ("food", "vegan_day", 2.0%float) ].

(** (category, type) with factor zero *)
Definition zero : list (string * string) :=
  [ ("transport", "bike"); ("transport", "walk") ].

(** categories whose row accepts any type *)
Definition anyType : list string := [ "shopping"; "other" ].

Definition hasKey (c t : string) (row : string * string) : bool :=
  String.eqb c (fst row) && String.eqb t (snd row).

(** Is the (lowercase) pair a row of the table? *)
Definition mem (c t : string) : bool :=
  existsb (hasKey c t) (map fst perUnit)
  || existsb (hasKey c t) (map fst flat)
  || existsb (hasKey c t) zero
  || existsb (String.eqb c) anyType.

End FactorTable.

(** The sum of a sequence of floats, accumulated from the left as a Go
    loop [acc += x] does. *)
Definition fsum (l : list float) : float := fold_left PrimFloat.add l 0%float.

(** The table after a sequence of creation requests, all at instant
    [now], from the empty table. *)
Definition replay {lib : GoLib} (now : Time) (dtos : list CreateActivityDTO.t)
    : DB :=
  fold_left (fun db dto => snd (createActivity now db dto)) dtos [].

(** The instants the day-stepping loop visits: [from], then one day later
    each time, while not after [to]. *)
Definition dayRange (from to : Time) : list Time :=
  if to <? from then []
  else map (fun k => time_AddDate_days from k)
           (seqZ 0 ((to - from) / 86400 + 1)).

(** The point the loop emits at instant [d]. *)
Definition pointAt {lib : GoLib} (byDay : gmap string float) (d : Time)
    : DailyPoint.t :=
  DailyPoint.mk (time_Format d) (default 0%float (byDay !! time_Format d)).




(** ** Listing and deleting (main.go, lines 95-102 and 150-162) *)

(** [Order("date asc, id asc")]: does [a] come no later than [b]? *)
Definition dateThenID (a b : Activity.t) : bool :=
  (Activity.Date a <? Activity.Date b)
  || ((Activity.Date a =? Activity.Date b)
      && (Activity.ID a <=? Activity.ID b)%N).

Fixpoint insertByDateID (it : Activity.t) (l : list Activity.t)
    : list Activity.t :=
  match l with
  | [] => [it]
  | x :: l' =>
      if dateThenID it x then it :: x :: l'
      else x :: insertByDateID it l'
  end.

Definition orderByDateID (l : list Activity.t) : list Activity.t :=
  fold_right insertByDateID [] l.

Definition listActivities (db : DB) : Response (list Activity.t) :=
  StatusOK (orderByDateID db).

(** The orders the two queries ask for, as relations on rows. *)
Definition byDate (a b : Activity.t) : Prop :=
  Activity.Date a <= Activity.Date b.

Definition byDateThenID (a b : Activity.t) : Prop :=
  Activity.Date a < Activity.Date b
  \/ (Activity.Date a = Activity.Date b
      /\ (Activity.ID a <= Activity.ID b)%N).

Module Strconv.

(** The value of a non-empty string of decimal digits. *)
Definition digitsValue (s : string) : option Z :=
  option_map (fun d => Z.of_N (N.of_uint d)) (NilZero.uint_of_string s).

(** [strconv.Atoi] with a 64-bit [int]: an optional sign, then decimal
    digits; an error when the syntax is wrong or the value does not fit. *)
Definition Atoi (s : string) : option Z :=
  let signed :=
    match s with
    | EmptyString => None
    | String c s' =>
        if Ascii.eqb c "+" then digitsValue s'
        else if Ascii.eqb c "-" then option_map Z.opp (digitsValue s')
        else digitsValue s
    end in
  match signed with
  | Some n => if Int64.in_range n then Some n else None
  | None => None
  end.

End Strconv.

(** [DB.Delete(&Activity{}, id)]: the rows whose key is [id] go. *)
Definition db_Delete (db : DB) (id : Z) : DB :=
  List.filter (fun it => negb (Z.of_N (Activity.ID it) =? id)) db.

(** The handler answers with the id it was given. *)
Definition deleteActivity (db : DB) (idStr : string) : Response Z * DB :=
  match Strconv.Atoi idStr with
  | None => (StatusBadRequest "invalid id", db)
  | Some id => (StatusOK id, db_Delete db id)
  end.

(** ** The loop of [roundMap] (main.go, lines 307-313)

    Go ranges over a map in an order of its choosing; [entries] is that
    enumeration. *)
Definition roundMapRange {lib : GoLib} (entries : list (string * float))
    : gmap string float :=
  fold_left (fun out kv => <[kv.1 := round2 kv.2]> out) entries ∅.

(** ** The form of the browser page (app.js) *)

Module Frontend.

Definition typesByCategory : list (string * list string) :=
  [ ("transport", ["car"; "bus"; "train"; "bike"; "walk"; "flight"]);
    ("energy", ["electricity"; "lpg"]);
    ("food", ["meat_heavy_day"; "vegetarian_day"; "vegan_day"]);
    ("shopping", ["spend"]);
    ("other", ["custom_kgco2e"]) ].

Definition defaultUnits : list (string * string) :=
  [ ("car", "km"); ("bus", "km"); ("train", "km"); ("bike", "km");
    ("walk", "km"); ("flight", "km");
    ("electricity", "kWh"); ("lpg", "kg");
    ("meat_heavy_day", "day"); ("vegetarian_day", "day");
    ("vegan_day", "day");
    ("spend", "currency");
    ("custom_kgco2e", "kgco2e") ].

(** [defaultUnits[t] || ''] *)
Fixpoint lookupOr (table : list (string * string)) (k dflt : string)
    : string :=
  match table with
  | [] => dflt
  | (k', v) :: rest => if String.eqb k k' then v else lookupOr rest k dflt
  end.

Definition defaultUnit (t : string) : string := lookupOr defaultUnits t "".

(** The type the submit handler puts in the request for the chosen
    category [cat] and type [t]. *)
Definition payloadType (cat t : string) : string :=
  let t := if String.eqb cat "shopping" && String.eqb t "spend"
           then "shopping" else t in
  let t := if String.eqb cat "other" && String.eqb t "custom_kgco2e"
           then "custom" else t in
  if String.eqb cat "shopping" then "shopping"
  else if String.eqb cat "other" then "custom"
  else t.

(** The id the Delete button puts at the end of the request path: the
    row's key in decimal. *)
Definition deleteId (row : Activity.t) : string :=
  NilZero.string_of_uint (N.to_uint (Activity.ID row)).

End Frontend.

(** ** Checking [round2] on the two-decimal values

    Does [round2] give back the float of [k] hundredths, and does adding
    it to the zero a sum starts from leave it as it is? *)
Definition keepsHundredth {lib : GoLib} (k : Z) : bool :=
  let v := (float64 k / 100)%float in
  Leibniz.eqb (round2 v) v && Leibniz.eqb (0 + v)%float v.

(** Does [f] hold at the [n] integers from [k] on? *)
Fixpoint allFrom (f : Z -> bool) (k : Z) (n : nat) : bool :=
  match n with
  | O => true
  | S n' => f k && allFrom f (k + 1) n'
  end.

(** * Properties *)

(** Follow one test of the calculator's switch, pruning the branches it
    rules out. *)
Ltac case_eqb :=
  match goal with
  | |- context [String.eqb ?a ?b] =>
      destruct (String.eqb a b); cbn [orb andb]
  end.

Section Calculator.
Context {lib : GoLib}.

Local Abbreviation lower := strings_ToLower.


(** C2. The calculator is a total function: it has a result for every
    category, type, quantity, unit and meta (no path of it fails), and
    for a lowercased (category, type) that is not a row of the factor
    table the result is exactly 0. *)
Theorem computeEmission_total category typ qty unit meta :
  (exists kg : float, computeEmission category typ qty unit meta = kg)
  /\ (FactorTable.mem (lower category) (lower typ) = false ->
      computeEmission category typ qty unit meta = 0%float).
Proof.
  split; [eexists; reflexivity |].
  unfold computeEmission, FactorTable.mem. cbv zeta.
  generalize (lower category) (lower typ) (lower unit). intros c t u.
  cbn [existsb map fst FactorTable.perUnit FactorTable.flat
       FactorTable.zero FactorTable.anyType].
  unfold FactorTable.hasKey. cbn [fst snd].
  repeat case_eqb; intros H; first [reflexivity | discriminate H].
Qed.

(** C3. In category "other" the result is [round2 quantity] when the
    lowercased unit is "kg" or "kgco2e", and 0 for every other unit; in
    every other category the unit has no influence on the result. *)
Theorem computeEmission_unit category typ qty unit meta :
  (lower category = "other" ->
     (lower unit = "kg" \/ lower unit = "kgco2e" ->
        computeEmission category typ qty unit meta = round2 qty)
     /\ (lower unit <> "kg" -> lower unit <> "kgco2e" ->
         computeEmission category typ qty unit meta = 0%float))
  /\ (lower category <> "other" ->
      forall unit', computeEmission category typ qty unit meta
                  = computeEmission category typ qty unit' meta).
Proof.
  split.
  - intros Hc. unfold computeEmission. rewrite Hc. cbn. split.
    + intros [-> | ->]; reflexivity.
    + intros Hkg Hco.
      destruct (String.eqb_spec (lower unit) "kgco2e"); [contradiction |].
      destruct (String.eqb_spec (lower unit) "kg"); [contradiction |].
      reflexivity.
  - intros Hc unit'. unfold computeEmission. cbn.
    destruct (String.eqb_spec (lower category) "other"); [contradiction |].
    reflexivity.
Qed.

(** C5. The calculator reads its three strings through lowercasing only:
    inputs that differ by letter case alone (their lowercase forms
    agree), such as "Transport" and "transport", have the same result. *)
Theorem computeEmission_case_insensitive
    category category' typ typ' unit unit' qty meta :
  lower category = lower category' ->
  lower typ = lower typ' ->
  lower unit = lower unit' ->
  computeEmission category typ qty unit meta
  = computeEmission category' typ' qty unit' meta.
Proof.
  intros Hc Ht Hu. unfold computeEmission. rewrite Hc, Ht, Hu. reflexivity.
Qed.

(** The meta argument is never read. *)
Lemma computeEmission_meta category typ qty unit meta meta' :
  computeEmission category typ qty unit meta
  = computeEmission category typ qty unit meta'.
Proof. reflexivity. Qed.

(** What a successful creation stores. *)
Lemma createActivity_ok now db dto row db' :
  createActivity now db dto = (StatusOK row, db') ->
  db' = db ++ [row]
  /\ Activity.EmissionKg row
     = computeEmission (CreateActivityDTO.Category dto)
         (CreateActivityDTO.Type_ dto) (CreateActivityDTO.Quantity dto)
         (CreateActivityDTO.Unit dto) None.
Proof.
  unfold createActivity.
  destruct (_ || _); [discriminate |].
  destruct (if String.eqb _ _ then _ else _) as [d |]; [| discriminate].
  cbn. intros H. injection H as <- <-. split; reflexivity.
Qed.

(** C9. The stored emission is a function of category, type, quantity
    and unit alone: the calculator's result does not depend on meta, and
    two successful creations whose requests agree on those four fields
    store the same [emission_kg], whatever their meta, dates, clocks and
    tables. *)
Theorem emission_deterministic :
  (forall category typ qty unit meta meta',
     computeEmission category typ qty unit meta
     = computeEmission category typ qty unit meta')
  /\ (forall now now' db db' dto dto' row row' db1 db1',
        CreateActivityDTO.Category dto = CreateActivityDTO.Category dto' ->
        CreateActivityDTO.Type_ dto = CreateActivityDTO.Type_ dto' ->
        CreateActivityDTO.Quantity dto = CreateActivityDTO.Quantity dto' ->
        CreateActivityDTO.Unit dto = CreateActivityDTO.Unit dto' ->
        createActivity now db dto = (StatusOK row, db1) ->
        createActivity now' db' dto' = (StatusOK row', db1') ->
        Activity.EmissionKg row = Activity.EmissionKg row'
        /\ last db1 = Some row /\ last db1' = Some row').
Proof.
  split; [reflexivity |].
  intros now now' db db' dto dto' row row' db1 db1' Hc Ht Hq Hu H H'.
  apply createActivity_ok in H as [-> ->].
  apply createActivity_ok in H' as [-> ->].
  rewrite Hc, Ht, Hq, Hu, !last_snoc. auto.
Qed.

End Calculator.

Section Aggregator.
Context {lib : GoLib}.

Local Abbreviation emission := Activity.EmissionKg.

(** ** The day-stepping loop *)

Lemma dayRange_empty from to : to < from -> dayRange from to = [].
Proof.
  intros H. unfold dayRange.
  destruct (Z.ltb_spec to from); [reflexivity | lia].
Qed.

Lemma dayRange_step from to :
  from <= to ->
  dayRange from to = from :: dayRange (time_AddDate_days from 1) to.
Proof.
  intros Hle. unfold dayRange, time_AddDate_days.
  destruct (Z.ltb_spec to from) as [? | _]; [lia |].
  destruct (Z.ltb_spec to (from + 1 * 86400)) as [Hlt | Hge].
  - replace ((to - from) / 86400) with 0
      by (symmetry; apply Z.div_small; lia).
    change (seqZ 0 (0 + 1)) with [0]. cbn. f_equal. lia.
  - replace (to - from) with (to - (from + 1 * 86400) + 1 * 86400) by lia.
    rewrite Z.div_add by lia.
    assert (0 <= (to - (from + 1 * 86400)) / 86400)
      by (apply Z.div_pos; lia).
    set (n := (to - (from + 1 * 86400)) / 86400) in *.
    replace (n + 1 + 1) with (Z.succ (n + 1)) by lia.
    rewrite seqZ_cons by lia. cbn. f_equal; [lia |].
    replace (Z.pred (Z.succ (n + 1))) with (n + 1) by lia.
    replace (Z.succ 0) with (1 + 0) by lia.
    rewrite <- fmap_add_seqZ, <- list_fmap_compose.
    apply list_fmap_ext. intros _ k _. cbn. lia.
Qed.

(** Between two midnights the loop visits every midnight from the first
    to the last: one instant per calendar day, both ends included. *)
Lemma dayRange_midnights a b :
  a <= b ->
  dayRange (86400 * a) (86400 * b)
  = map (fun day => 86400 * day) (seqZ a (b - a + 1)).
Proof.
  intros Hab. unfold dayRange, time_AddDate_days.
  destruct (Z.ltb_spec (86400 * b) (86400 * a)) as [? | _]; [lia |].
  replace (86400 * b - 86400 * a) with ((b - a) * 86400) by lia.
  rewrite Z.div_mul by lia.
  replace a with (a + 0) at 2 by lia.
  rewrite <- fmap_add_seqZ, <- list_fmap_compose.
  apply list_fmap_ext. intros _ k _. cbn. lia.
Qed.

Lemma fillDays_dayRange byDay to d points :
  fillDays byDay to d points = points ++ map (pointAt byDay) (dayRange d to).
Proof.
  funelim (fillDays byDay to d points).
  - unfold time_After in *. rewrite dayRange_empty by lia.
    cbn. now rewrite app_nil_r.
  - unfold time_After in *. rewrite H, (dayRange_step d to) by lia.
    cbn. now rewrite <- app_assoc.
Qed.

(** ** The loop over the fetched items *)

(** A map filled by [m[key it] += emission it] over the items. *)
Lemma addAt_fold_value (key : Activity.t -> string) items :
  forall (m : gmap string float) k,
    default 0%float
      (fold_left (fun m it => addAt m (key it) (emission it)) items m !! k)
    = fold_left PrimFloat.add
        (map emission (filter (fun it => key it = k) items))
        (default 0%float (m !! k)).
Proof.
  induction items as [| it items IH]; intros m k; [reflexivity |].
  cbn [fold_left]. rewrite IH. unfold addAt at 1.
  rewrite filter_cons. destruct (decide (key it = k)) as [-> | Hne].
  - now rewrite lookup_insert_eq.
  - now rewrite lookup_insert_ne.
Qed.

Lemma addAt_fold_present (key : Activity.t -> string) items :
  forall (m : gmap string float) k,
    fold_left (fun m it => addAt m (key it) (emission it)) items m !! k = None
    <-> m !! k = None /\ Forall (fun it => key it <> k) items.
Proof.
  induction items as [| it items IH]; intros m k.
  - cbn. split; [intros H; split; [exact H | constructor] | tauto].
  - cbn [fold_left]. rewrite IH, Forall_cons. unfold addAt.
    destruct (decide (key it = k)) as [-> | Hne].
    + rewrite lookup_insert_eq. split; [intros [? _]; discriminate | tauto].
    + rewrite lookup_insert_ne by exact Hne. tauto.
Qed.

Lemma accumulate_fold items :
  forall s,
    fold_left accumulate items s
    = mkSums
        (fold_left PrimFloat.add (map emission items) (total s))
        (fold_left (fun m it => addAt m (Activity.Category it) (emission it))
           items (byCat s))
        (fold_left
           (fun m it => addAt m (time_Format (Activity.Date it)) (emission it))
           items (byDay s)).
Proof.
  induction items as [| it items IH]; intros s; [now destruct s |].
  cbn [fold_left map]. now rewrite IH.
Qed.



Lemma sumItems_byCat_None items c :
  byCat (sumItems items) !! c = None
  <-> Forall (fun it => Activity.Category it <> c) items.
Proof.
  unfold sumItems. rewrite accumulate_fold. cbn [byCat].
  rewrite addAt_fold_present, lookup_empty. tauto.
Qed.

Lemma sumItems_byDay items k :
  default 0%float (byDay (sumItems items) !! k)
  = fsum (map emission
            (filter (fun it => time_Format (Activity.Date it) = k) items)).
Proof.
  unfold sumItems. rewrite accumulate_fold. cbn [byDay].
  now rewrite addAt_fold_value.
Qed.

(** ** The response *)

(** The series has one point for each instant of the day-stepping range,
    in that order; a point carries the date of its instant and the sum of
    the fetched items dated that day (0 when there is none). *)
Lemma summarize_ByDay items from to :
  SummaryResponse.ByDay (summarize items from to)
  = map (fun d =>
           DailyPoint.mk (time_Format d)
             (fsum (map emission
                      (filter (fun it => time_Format (Activity.Date it)
                                         = time_Format d) items))))
        (dayRange from to).
Proof.
  unfold summarize. cbn [SummaryResponse.ByDay].
  rewrite fillDays_dayRange. cbn [app].
  apply list_fmap_ext. intros _ d _. unfold pointAt.
  now rewrite sumItems_byDay.
Qed.

Lemma insertByDate_elem it x l : x ∈ insertByDate it l <-> x = it \/ x ∈ l.
Proof.
  induction l as [| y l IH]; cbn.
  - rewrite list_elem_of_singleton, elem_of_nil. tauto.
  - destruct (_ <=? _).
    + now rewrite elem_of_cons.
    + rewrite !elem_of_cons, IH. tauto.
Qed.

(** The fetched items are the rows whose instant lies between the
    instants [from] and [to]. *)
Lemma findBetween_elem db from to it :
  it ∈ findBetween db from to
  <-> it ∈ db /\ from <= Activity.Date it <= to.
Proof.
  unfold findBetween, orderByDate.
  induction db as [| x db IH]; cbn.
  - split; [intros H | intros [H _]]; inversion H.
  - rewrite elem_of_cons.
    destruct (Z.leb_spec from (Activity.Date x));
      destruct (Z.leb_spec (Activity.Date x) to); cbn;
      rewrite ?insertByDate_elem, IH;
      (split; [intros H1 | intros [[-> | ?] ?]]);
      try (destruct H1 as [-> | [? ?]]); try (destruct H1 as [? ?]);
      first [lia | tauto].
Qed.

Lemma findBetween_empty db from to : to < from -> findBetween db from to = [].
Proof.
  intros Hlt. unfold findBetween.
  replace (List.filter _ db) with (@nil Activity.t); [reflexivity |].
  induction db as [| it db IH]; [reflexivity |]. cbn.
  destruct (Z.leb_spec from (Activity.Date it));
    destruct (Z.leb_spec (Activity.Date it) to); cbn; try exact IH. lia.
Qed.

(** With [from] after [to] the series is empty and the total is 0. *)
Lemma summarize_reversed db from to :
  to < from ->
  let r := summarize (findBetween db from to) from to in
  SummaryResponse.ByDay r = [] /\ SummaryResponse.TotalKg r = 0%float
  /\ SummaryResponse.ByCategory r = ∅.
Proof.
  intros Hlt r. subst r. rewrite findBetween_empty by exact Hlt.
  split; [| split].
  - now rewrite summarize_ByDay, dayRange_empty.
  - vm_compute. reflexivity.
  - unfold summarize, roundMap. cbn. apply fmap_empty.
Qed.

(** C10. The kg of every point of [by_day] is the plain float64 sum,
    accumulated in record order from 0, of the [emission_kg] of the
    fetched records whose date formats to the point's date; [round2] is
    not applied to it. *)
Theorem by_day_unrounded items from to p :
  p ∈ SummaryResponse.ByDay (summarize items from to) ->
  DailyPoint.Kg p
  = fsum (map emission
            (filter (fun it => time_Format (Activity.Date it) = DailyPoint.Date p)
                    items)).
Proof.
  rewrite summarize_ByDay. intros Hin.
  apply list_elem_of_fmap in Hin as (d & -> & _). reflexivity.
Qed.


End Aggregator.

Section Rounding.
Context {lib : GoLib}.







End Rounding.

(** * Worked examples on the reference implementation *)

Section Examples.
Local Existing Instance Reference.lib.
Local Open Scope float_scope.


(** 2025-08-10 at 15:00:00 UTC *)
Local Abbreviation afternoon := 1754838000%Z.


Lemma computeEmission_total_witness :
  computeEmission "transport" "rocket" 10 "km" None = 0.0
  /\ computeEmission "travel" "car" 10 "km" None = 0.0.
Proof.
  split.
  - apply (computeEmission_total "transport" "rocket" 10 "km" None).
    reflexivity.
  - apply (computeEmission_total "travel" "car" 10 "km" None).
    reflexivity.
Defined.

Lemma computeEmission_unit_witness :
  computeEmission "other" "anything" 5 "kgco2e" None = 5.0
  /\ computeEmission "other" "anything" 5 "usd" None = 0.0
  /\ computeEmission "transport" "car" 20 "km" None
     = computeEmission "transport" "car" 20 "miles" None.
Proof.
  split; [| split].
  - destruct (computeEmission_unit "other" "anything" 5 "kgco2e" None)
      as (Hother & _).
    destruct (Hother eq_refl) as (Hkg & _).
    rewrite Hkg; [vm_compute; reflexivity | right; reflexivity].
  - destruct (computeEmission_unit "other" "anything" 5 "usd" None)
      as (Hother & _).
    destruct (Hother eq_refl) as (_ & Hzero).
    apply Hzero; cbn; discriminate.
  - destruct (computeEmission_unit "transport" "car" 20 "km" None)
      as (_ & Hunit).
    apply Hunit. cbn. discriminate.
Defined.

Lemma computeEmission_case_insensitive_witness :
  computeEmission "Transport" "CAR" 20 "KM" None
  = computeEmission "transport" "car" 20 "km" None.
Proof.
  apply computeEmission_case_insensitive; reflexivity.
Defined.



Lemma emission_deterministic_witness :
  let dto :=
    CreateActivityDTO.mk "transport" "car" 20 "km" None "2025-08-10" in
  let dto' := CreateActivityDTO.mk "transport" "car" 20 "km" (Some ∅) "" in
  let row :=
    Activity.mk 1 "transport" "car" 20 "km" "{}" 3.84 1754784000%Z afternoon in
  let row' := Activity.mk 2 "transport" "car" 20 "km" "{}" 3.84 0%Z 0%Z in
  createActivity afternoon [] dto = (StatusOK row, [row])
  /\ createActivity 0%Z [row] dto' = (StatusOK row', [row; row'])
  /\ Activity.EmissionKg row = Activity.EmissionKg row'
  /\ last [row] = Some row /\ last [row; row'] = Some row'.
Proof.
  intros dto dto' row row'.
  assert (H : createActivity afternoon [] dto = (StatusOK row, [row]))
    by (vm_compute; reflexivity).
  assert (H' : createActivity 0%Z [row] dto' = (StatusOK row', [row; row']))
    by (vm_compute; reflexivity).
  split; [exact H |]. split; [exact H' |].
  destruct emission_deterministic as (_ & Hsame).
  exact (Hsame afternoon 0%Z [] [row] dto dto' row row' [row] [row; row']
           eq_refl eq_refl eq_refl eq_refl H H').
Defined.

(** Two records of 0.1 kg and 0.2 kg on one day: the point of that day
    carries 0.30000000000000004, while the total is rounded to 0.3. *)
Lemma by_day_unrounded_witness :
  let items :=
    [ Activity.mk 1 "other" "a" 0.1 "kg" "{}" 0.1 0%Z 0%Z;
      Activity.mk 2 "other" "b" 0.2 "kg" "{}" 0.2 0%Z 0%Z ] in
  let r := summarize items 0%Z 0%Z in
  let p := DailyPoint.mk "1970-01-01" 0.30000000000000004 in
  SummaryResponse.ByDay r = [p]
  /\ DailyPoint.Kg p = fsum [0.1; 0.2]
  /\ SummaryResponse.TotalKg r = 0.3.
Proof.
  intros items r p. split; [vm_compute; reflexivity |]. split.
  - rewrite (by_day_unrounded items 0%Z 0%Z p).
    + vm_compute. reflexivity.
    + replace (SummaryResponse.ByDay (summarize items 0%Z 0%Z)) with [p]
        by (vm_compute; reflexivity).
      apply list_elem_of_here.
  - vm_compute. reflexivity.
Defined.



(** C8: records of a boundary day are left out because of a time of day.
    At 15:00 on 2025-08-10 the default window ("last 30 days") starts at
    15:00 on 2025-07-12: a record dated 2025-07-12 (midnight) is not
    fetched, although the series has a point for that day.  And a record
    created without a date is stamped 15:00 on 2025-08-10: the summary from
    2025-08-01 to 2025-08-10 fetches up to the midnight of [to] and leaves
    it out, although its date formats to 2025-08-10. *)
Theorem boundary_day_record_excluded :
  (let db :=
     replay afternoon
       [ CreateActivityDTO.mk "transport" "car" 20 "km" None "2025-07-12" ] in
   exists row r,
     db = [row]
     /\ time_Format (Activity.Date row) = "2025-07-12"%string
     /\ Activity.EmissionKg row = 3.84
     /\ summary afternoon afternoon db "" "" = StatusOK r
     /\ SummaryResponse.From r = "2025-07-12"%string
     /\ length (SummaryResponse.ByDay r) = 30%nat
     /\ head (SummaryResponse.ByDay r) = Some (DailyPoint.mk "2025-07-12" 0)
     /\ SummaryResponse.TotalKg r = 0
     /\ SummaryResponse.ByCategory r = ∅)
  /\ (let db :=
        replay afternoon
          [ CreateActivityDTO.mk "transport" "car" 20 "km" None "" ] in
      exists row r,
        db = [row]
        /\ time_Format (Activity.Date row) = "2025-08-10"%string
        /\ Activity.EmissionKg row = 3.84
        /\ summary afternoon afternoon db "2025-08-01" "2025-08-10"
           = StatusOK r
        /\ SummaryResponse.To r = "2025-08-10"%string
        /\ last (SummaryResponse.ByDay r)
           = Some (DailyPoint.mk "2025-08-10" 0)
        /\ SummaryResponse.TotalKg r = 0
        /\ SummaryResponse.ByCategory r = ∅).
Proof.
  split; intros db; do 2 eexists;
    (split; [vm_compute; reflexivity |]);
    (split; [vm_compute; reflexivity |]);
    (split; [vm_compute; reflexivity |]);
    (split; [vm_compute; reflexivity |]);
    (split; [vm_compute; reflexivity |]).
  - split; [vm_compute; reflexivity |]. split; [vm_compute; reflexivity |].
    split; vm_compute; reflexivity.
  - split; [vm_compute; reflexivity |]. split; vm_compute; reflexivity.
Qed.

(** C6: at 15:00 on 2025-08-10, the summary with no [from] and
    [to=2025-08-10] steps from 15:00 on 2025-07-12, one day at a time;
    15:00 on 2025-08-10 is after [to], the midnight of that day, so the
    series ends on 2025-08-09 and has no point for 2025-08-10, the day the
    response names as [to], although the record of that day is fetched and
    counted in the total. *)
Theorem by_day_misses_last_day :
  let db :=
    replay afternoon
      [ CreateActivityDTO.mk "transport" "car" 20 "km" None "2025-08-10" ] in
  exists r,
    summary afternoon afternoon db "" "2025-08-10" = StatusOK r
    /\ SummaryResponse.From r = "2025-07-12"%string
    /\ SummaryResponse.To r = "2025-08-10"%string
    /\ SummaryResponse.TotalKg r = 3.84
    /\ length (SummaryResponse.ByDay r) = 29%nat
    /\ last (SummaryResponse.ByDay r) = Some (DailyPoint.mk "2025-08-09" 0)
    /\ Forall (fun p => DailyPoint.Date p <> "2025-08-10"%string
                        /\ DailyPoint.Kg p = 0)
              (SummaryResponse.ByDay r).
Proof.
  intros db. eexists. split; [vm_compute; reflexivity |].
  split; [vm_compute; reflexivity |]. split; [vm_compute; reflexivity |].
  split; [vm_compute; reflexivity |]. split; [vm_compute; reflexivity |].
  split; [vm_compute; reflexivity |].
  match goal with
  | |- Forall _ ?l => let l' := eval vm_compute in l in change l with l'
  end.
  repeat constructor; cbn; discriminate.
Qed.

End Examples.

(** * Further properties of the handlers *)

Section Storage.

(** ** The two orderings *)

Lemma dateThenID_spec a b : dateThenID a b = true <-> byDateThenID a b.
Proof.
  unfold dateThenID, byDateThenID.
  rewrite orb_true_iff, andb_true_iff, Z.ltb_lt, Z.eqb_eq, N.leb_le.
  tauto.
Qed.

Lemma dateThenID_total a b : dateThenID a b = false -> byDateThenID b a.
Proof.
  intros H. destruct (dateThenID b a) eqn:Hba; [now apply dateThenID_spec |].
  unfold dateThenID in *.
  apply orb_false_iff in H as [H1 H2]. apply orb_false_iff in Hba as [H3 H4].
  apply Z.ltb_ge in H1, H3.
  assert (Heq : Activity.Date a = Activity.Date b) by lia.
  rewrite Heq, Z.eqb_refl in H2, H4. cbn in H2, H4.
  apply N.leb_gt in H2, H4. lia.
Qed.

Lemma byDateThenID_trans a b c :
  byDateThenID a b -> byDateThenID b c -> byDateThenID a c.
Proof. unfold byDateThenID. intros [? | [? ?]] [? | [? ?]]; lia. Qed.

Lemma insertByDate_perm it l : insertByDate it l ≡ₚ it :: l.
Proof.
  induction l as [| x l IH]; cbn; [reflexivity |].
  destruct (_ <=? _); [reflexivity |]. rewrite IH. apply Permutation_swap.
Qed.

Lemma insertByDateID_perm it l : insertByDateID it l ≡ₚ it :: l.
Proof.
  induction l as [| x l IH]; cbn; [reflexivity |].
  destruct (dateThenID it x); [reflexivity |].
  rewrite IH. apply Permutation_swap.
Qed.

Lemma orderByDate_perm l : orderByDate l ≡ₚ l.
Proof.
  induction l as [| x l IH]; cbn; [reflexivity |].
  now rewrite insertByDate_perm, IH.
Qed.

Lemma orderByDateID_perm l : orderByDateID l ≡ₚ l.
Proof.
  induction l as [| x l IH]; cbn; [reflexivity |].
  now rewrite insertByDateID_perm, IH.
Qed.

Lemma insertByDate_sorted it l :
  Sorted byDate l -> Sorted byDate (insertByDate it l).
Proof.
  induction l as [| x l IH]; cbn; intros Hs; [repeat constructor |].
  destruct (Z.leb_spec (Activity.Date it) (Activity.Date x)).
  - constructor; [exact Hs | constructor; assumption].
  - inversion Hs as [| ? ? Hl Hhd]; subst. constructor; [now apply IH |].
    destruct l as [| y l]; cbn.
    + constructor. unfold byDate. lia.
    + destruct (_ <=? _); constructor.
      * unfold byDate. lia.
      * now inversion Hhd.
Qed.

Lemma insertByDateID_sorted it l :
  Sorted byDateThenID l -> Sorted byDateThenID (insertByDateID it l).
Proof.
  induction l as [| x l IH]; cbn; intros Hs; [repeat constructor |].
  destruct (dateThenID it x) eqn:Hle.
  - constructor; [exact Hs | constructor; now apply dateThenID_spec].
  - inversion Hs as [| ? ? Hl Hhd]; subst. constructor; [now apply IH |].
    destruct l as [| y l]; cbn.
    + constructor. now apply dateThenID_total.
    + destruct (dateThenID it y); constructor.
      * now apply dateThenID_total.
      * now inversion Hhd.
Qed.

Lemma orderByDate_sorted l : Sorted byDate (orderByDate l).
Proof.
  induction l as [| x l IH]; cbn; [constructor |].
  now apply insertByDate_sorted.
Qed.

Lemma orderByDateID_sorted l : Sorted byDateThenID (orderByDateID l).
Proof.
  induction l as [| x l IH]; cbn; [constructor |].
  now apply insertByDateID_sorted.
Qed.

Lemma insertByDateID_front it l :
  (forall z, head l = Some z -> byDateThenID it z) ->
  insertByDateID it l = it :: l.
Proof.
  destruct l as [| y l]; cbn; [reflexivity |]. intros H.
  now rewrite (proj2 (dateThenID_spec it y) (H y eq_refl)).
Qed.

(** Removing rows commutes with inserting into a sorted list. *)
Lemma filter_insertByDateID p it l :
  StronglySorted byDateThenID l ->
  List.filter p (insertByDateID it l)
  = if p it then insertByDateID it (List.filter p l) else List.filter p l.
Proof.
  induction l as [| y l IH]; intros Hs; [cbn; now destruct (p it) |].
  inversion Hs as [| ? ? Hl Hall]; subst. cbn [insertByDateID].
  destruct (dateThenID it y) eqn:Hle.
  - change (List.filter p (it :: y :: l))
      with (if p it then it :: List.filter p (y :: l)
            else List.filter p (y :: l)).
    destruct (p it); [| reflexivity].
    symmetry. apply insertByDateID_front. intros z Hz.
    apply dateThenID_spec in Hle.
    assert (Hin : In z (List.filter p (y :: l))).
    { destruct (List.filter p (y :: l)) as [| z' fl]; [discriminate |].
      injection Hz as ->. now left. }
    apply filter_In in Hin as [[<- | Hin] _]; [exact Hle |].
    rewrite Forall_forall in Hall.
    eapply byDateThenID_trans; [exact Hle |].
    apply Hall. now apply list_elem_of_In.
  - change (List.filter p (y :: insertByDateID it l))
      with (if p y then y :: List.filter p (insertByDateID it l)
            else List.filter p (insertByDateID it l)).
    rewrite (IH Hl). cbn [List.filter].
    destruct (p y), (p it); cbn [insertByDateID]; rewrite ?Hle; reflexivity.
Qed.

Lemma orderByDateID_filter p l :
  orderByDateID (List.filter p l) = List.filter p (orderByDateID l).
Proof.
  induction l as [| x l IH]; [reflexivity |].
  cbn [List.filter orderByDateID fold_right].
  fold (orderByDateID l).
  rewrite filter_insertByDateID.
  - destruct (p x); [| exact IH]. cbn [orderByDateID fold_right].
    fold (orderByDateID (List.filter p l)). now rewrite IH.
  - apply Sorted_StronglySorted; [| apply orderByDateID_sorted].
    intros a b c. apply byDateThenID_trans.
Qed.

(** ** Keys *)

Lemma nextID_above (db : DB) it :
  it ∈ db -> (Activity.ID it < nextID db)%N.
Proof.
  unfold nextID. induction db as [| x db IH]; intros Hin.
  - now apply elem_of_nil in Hin.
  - cbn. apply elem_of_cons in Hin as [-> | Hin]; [lia |].
    specialize (IH Hin). lia.
Qed.

Lemma db_Delete_elem db id row :
  row ∈ db_Delete db id
  <-> row ∈ db /\ Z.of_N (Activity.ID row) <> id.
Proof.
  unfold db_Delete. rewrite !list_elem_of_In, filter_In.
  rewrite negb_true_iff, Z.eqb_neq. reflexivity.
Qed.

Lemma db_Delete_absent db id :
  (forall row, row ∈ db -> Z.of_N (Activity.ID row) <> id) ->
  db_Delete db id = db.
Proof.
  unfold db_Delete. induction db as [| x db IH]; intros H; [reflexivity |].
  cbn. destruct (Z.eqb_spec (Z.of_N (Activity.ID x)) id) as [Heq | _].
  - exfalso. apply (H x); [left | exact Heq].
  - cbn. f_equal. apply IH. intros row Hin. apply H. now right.
Qed.

(** ** Decimal ids *)

Lemma digit_string_head d :
  d <> Decimal.Nil ->
  exists c s, NilZero.string_of_uint d = String c s
              /\ Ascii.eqb c "+" = false /\ Ascii.eqb c "-" = false.
Proof.
  destruct d; [congruence | ..]; intros _; cbn; eauto.
Qed.

Lemma to_uint_nonnil (n : N) : N.to_uint n <> Decimal.Nil.
Proof.
  destruct n as [| p]; [discriminate |]. apply DecimalPos.Unsigned.to_uint_nonnil.
Qed.

Lemma Atoi_decimal (n : N) :
  (n < 2 ^ 63)%N ->
  Strconv.Atoi (NilZero.string_of_uint (N.to_uint n)) = Some (Z.of_N n).
Proof.
  intros Hn. pose proof (to_uint_nonnil n) as Hnil.
  destruct (digit_string_head _ Hnil) as (c & s & Hs & Hplus & Hminus).
  assert (Hval : Strconv.digitsValue (NilZero.string_of_uint (N.to_uint n))
                 = Some (Z.of_N n)).
  { unfold Strconv.digitsValue. rewrite NilZero.usu by exact Hnil.
    cbn. now rewrite DecimalN.Unsigned.of_to. }
  unfold Strconv.Atoi. rewrite Hs in *. rewrite Hplus, Hminus, Hval.
  replace (Int64.in_range (Z.of_N n)) with true; [reflexivity |].
  symmetry. unfold Int64.in_range, Int64.min_int, Int64.max_int.
  apply andb_true_intro; split; apply Z.leb_le; lia.
Qed.

End Storage.

Section Handlers.
Context {lib : GoLib}.

(** ** Listing *)

(** X1. The listing answers with every row of the table, each once, in
    ascending order of date and, within one date, of id. *)
Theorem listActivities_sorted_permutation db :
  exists items,
    listActivities db = StatusOK items
    /\ items ≡ₚ db
    /\ Sorted byDateThenID items.
Proof.
  eexists. split; [reflexivity |]. split.
  - apply orderByDateID_perm.
  - apply orderByDateID_sorted.
Qed.

(** ** Deleting *)

(** X2. A deletion that is accepted keeps exactly the rows with another
    id, in their order, and answers with the id; a request whose id is not
    a decimal [int] is refused and leaves the table as it is. *)
Theorem deleteActivity_outcome db idStr :
  match Strconv.Atoi idStr with
  | Some id =>
      exists db',
        deleteActivity db idStr = (StatusOK id, db')
        /\ (forall row, row ∈ db'
                        <-> row ∈ db /\ Z.of_N (Activity.ID row) <> id)
        /\ sublist db' db
  | None => deleteActivity db idStr = (StatusBadRequest "invalid id", db)
  end.
Proof.
  unfold deleteActivity. destruct (Strconv.Atoi idStr) as [id |];
    [| reflexivity].
  eexists. split; [reflexivity |]. split.
  - intros row. apply db_Delete_elem.
  - unfold db_Delete. induction db as [| x db IH]; cbn; [constructor |].
    destruct (negb _); now constructor.
Qed.

(** X3. Deleting an id that no row has is not an error: the answer is
    still 200 with that id and the table is unchanged.  In particular a
    deletion repeated has the effect of one. *)
Theorem deleteActivity_absent_id db idStr id :
  Strconv.Atoi idStr = Some id ->
  ((forall row, row ∈ db -> Z.of_N (Activity.ID row) <> id) ->
   deleteActivity db idStr = (StatusOK id, db))
  /\ (forall db', deleteActivity db idStr = (StatusOK id, db') ->
                  deleteActivity db' idStr = (StatusOK id, db')).
Proof.
  intros Hid. unfold deleteActivity. rewrite Hid. split.
  - intros Habsent. now rewrite db_Delete_absent.
  - intros db' H. injection H as <-. f_equal.
    apply db_Delete_absent. intros row Hin.
    now apply db_Delete_elem in Hin.
Qed.

(** X4. The listing after a deletion is the listing before it without
    the rows of the deleted id: the other rows keep their places. *)
Theorem listActivities_after_delete db idStr id db' :
  deleteActivity db idStr = (StatusOK id, db') ->
  exists before after,
    listActivities db = StatusOK before
    /\ listActivities db' = StatusOK after
    /\ after = db_Delete before id.
Proof.
  unfold deleteActivity. destruct (Strconv.Atoi idStr) as [id' |];
    [| discriminate].
  intros H. injection H as -> <-. do 2 eexists.
  split; [reflexivity |]. split; [reflexivity |].
  unfold db_Delete. apply orderByDateID_filter.
Qed.

(** ** Creating *)

(** X5. A creation is refused exactly when the category or the type is
    empty or the date is neither blank nor a date of the layout, and then
    the table is untouched.  Otherwise one row is appended after the rows
    already there; it carries the request's category, type, quantity and
    unit as they were sent, the clock's instant when the date is blank and
    the parsed date otherwise, and an id that no earlier row has. *)
Theorem createActivity_outcome now db dto :
  let date := CreateActivityDTO.Date dto in
  let refused :=
    CreateActivityDTO.Category dto = ""%string
    \/ CreateActivityDTO.Type_ dto = ""%string
    \/ (strings_TrimSpace date <> ""%string /\ time_Parse date = None) in
  (refused /\ exists msg, createActivity now db dto = (StatusBadRequest msg, db))
  \/ (~ refused
      /\ exists row,
           createActivity now db dto = (StatusOK row, db ++ [row])
           /\ Activity.Category row = CreateActivityDTO.Category dto
           /\ Activity.Type_ row = CreateActivityDTO.Type_ dto
           /\ Activity.Quantity row = CreateActivityDTO.Quantity dto
           /\ Activity.Unit row = CreateActivityDTO.Unit dto
           /\ (strings_TrimSpace date = ""%string -> Activity.Date row = now)
           /\ (strings_TrimSpace date <> ""%string ->
               time_Parse date = Some (Activity.Date row))
           /\ (forall old, old ∈ db -> Activity.ID old <> Activity.ID row)).
Proof.
  intros date refused. subst date refused. unfold createActivity.
  destruct (String.eqb_spec (CreateActivityDTO.Category dto) "") as [Hc | Hc];
    [left; split; [tauto | eexists; reflexivity] |].
  destruct (String.eqb_spec (CreateActivityDTO.Type_ dto) "") as [Ht | Ht];
    [left; split; [tauto | eexists; reflexivity] |].
  cbn [orb].
  destruct (String.eqb_spec
              (strings_TrimSpace (CreateActivityDTO.Date dto)) "")
    as [Hblank | Hblank].
  - right. split; [intros [? | [? | [? _]]]; contradiction |].
    eexists. split; [reflexivity |]. cbn.
    repeat split; try reflexivity; try contradiction.
    intros old Hin Heq. apply nextID_above in Hin. rewrite Heq in Hin. lia.
  - destruct (time_Parse (CreateActivityDTO.Date dto)) as [d |] eqn:Hparse.
    + right. split; [intros [? | [? | [_ ?]]]; [contradiction .. | discriminate] |].
      eexists. split; [reflexivity |]. cbn.
      repeat split; try reflexivity; try contradiction.
      intros old Hin Heq. apply nextID_above in Hin. rewrite Heq in Hin. lia.
    + left. split; [tauto | eexists; reflexivity].
Qed.

(** X6. The Delete button that the page draws for a row just created
    (the row's id in decimal at the end of the path; the page holds ids as
    JavaScript numbers, exact below 2^53) takes the table back to what it
    was before the creation. *)
Theorem create_then_delete now db dto row db' :
  createActivity now db dto = (StatusOK row, db') ->
  (Activity.ID row < 2 ^ 53)%N ->
  deleteActivity db' (Frontend.deleteId row)
  = (StatusOK (Z.of_N (Activity.ID row)), db).
Proof.
  intros Hcreate Hid.
  destruct (createActivity_ok _ _ _ _ _ Hcreate) as [-> _].
  assert (Hfresh : forall old, old ∈ db -> Activity.ID old <> Activity.ID row).
  { unfold createActivity in Hcreate.
    destruct (_ || _); [discriminate |].
    destruct (if String.eqb _ _ then _ else _); [| discriminate].
    cbn in Hcreate. injection Hcreate as <- _.
    intros old Hin Heq. apply nextID_above in Hin. cbn in Heq. lia. }
  unfold deleteActivity, Frontend.deleteId.
  rewrite Atoi_decimal
    by (eapply N.lt_trans; [exact Hid | reflexivity]).
  f_equal. unfold db_Delete. rewrite List.filter_app. cbn.
  rewrite Z.eqb_refl. cbn. rewrite app_nil_r.
  apply (db_Delete_absent db). intros old Hin Heq.
  apply (Hfresh old Hin). lia.
Qed.

(** X7. A row just created is in the listing, with every row that was
    there before; the listing is one longer. *)
Theorem listActivities_after_create now db dto row db' :
  createActivity now db dto = (StatusOK row, db') ->
  exists before after,
    listActivities db = StatusOK before
    /\ listActivities db' = StatusOK after
    /\ after ≡ₚ row :: before.
Proof.
  intros Hcreate.
  destruct (createActivity_ok _ _ _ _ _ Hcreate) as [-> _].
  do 2 eexists. split; [reflexivity |]. split; [reflexivity |].
  rewrite !orderByDateID_perm. now rewrite Permutation_app_comm.
Qed.

(** ** The summary *)

Lemma summarize_nil from to :
  summarize [] from to
  = SummaryResponse.mk (time_Format from) (time_Format to) 0%float ∅
      (map (fun d => DailyPoint.mk (time_Format d) 0%float)
           (dayRange from to)).
Proof.
  unfold summarize. cbn [sumItems fold_left total byCat byDay].
  replace (round2 0) with 0%float by (vm_compute; reflexivity).
  unfold roundMap. rewrite fmap_empty, fillDays_dayRange. reflexivity.
Qed.

Lemma findBetween_none db from to :
  (forall it, it ∈ db -> ~ (from <= Activity.Date it <= to)) ->
  findBetween db from to = [].
Proof.
  intros Hnone. destruct (findBetween db from to) as [| x l] eqn:Hfetch;
    [reflexivity |].
  assert (Hin : x ∈ findBetween db from to) by (rewrite Hfetch; left).
  apply findBetween_elem in Hin as [Hin Hrange].
  now apply Hnone in Hin.
Qed.

(** X8. The summary is refused only for a parameter that is neither
    blank nor a date of the layout, [from] being looked at first; in
    every other case, the range reversed included, it answers 200 with
    the two bounds formatted as days. *)
Theorem summary_status nowFrom nowTo db fromStr toStr :
  let bad s := strings_TrimSpace s <> ""%string /\ time_Parse s = None in
  match summary nowFrom nowTo db fromStr toStr with
  | StatusBadRequest msg =>
      (bad fromStr /\ msg = "invalid from"%string)
      \/ (~ bad fromStr /\ bad toStr /\ msg = "invalid to"%string)
  | StatusOK r =>
      ~ bad fromStr /\ ~ bad toStr
      /\ exists from to,
           dateParam fromStr (time_AddDate_days nowFrom (-29)) = Some from
           /\ dateParam toStr nowTo = Some to
           /\ SummaryResponse.From r = time_Format from
           /\ SummaryResponse.To r = time_Format to
  end.
Proof.
  intros bad. subst bad. unfold summary, dateParam.
  destruct (String.eqb_spec (strings_TrimSpace fromStr) "") as [Hf | Hf];
    [| destruct (time_Parse fromStr) as [from |] eqn:Hpf];
    try (left; split; [split; [exact Hf | reflexivity] | reflexivity]);
    (destruct (String.eqb_spec (strings_TrimSpace toStr) "") as [Ht | Ht];
       [| destruct (time_Parse toStr) as [to |] eqn:Hpt]);
    try (right; split; [intros [? ?]; congruence |];
         split; [split; [exact Ht | reflexivity] | reflexivity]);
    (split; [intros [? ?]; congruence |];
     split; [intros [? ?]; congruence |];
     do 2 eexists; repeat split; reflexivity).
Qed.

(** X9. A range given backwards is not an error: when both parameters
    parse and [from] is after [to], the answer is 200 with no point, no
    bucket and a total of 0, whatever the table holds. *)
Theorem summary_reversed_range nowFrom nowTo db fromStr toStr from to :
  strings_TrimSpace fromStr <> ""%string ->
  strings_TrimSpace toStr <> ""%string ->
  time_Parse fromStr = Some from ->
  time_Parse toStr = Some to ->
  to < from ->
  summary nowFrom nowTo db fromStr toStr
  = StatusOK (SummaryResponse.mk (time_Format from) (time_Format to)
                0%float ∅ []).
Proof.
  intros Hf Ht Hpf Hpt Hlt. unfold summary, dateParam.
  destruct (String.eqb_spec (strings_TrimSpace fromStr) ""); [contradiction |].
  destruct (String.eqb_spec (strings_TrimSpace toStr) ""); [contradiction |].
  rewrite Hpf, Hpt, findBetween_empty by exact Hlt.
  now rewrite summarize_nil, dayRange_empty.
Qed.

(** X10. With both parameters blank the series has 30 points: the days
    from 29 days before the first clock reading up to the day of that
    reading, in order (the two clock readings of a request being less
    than a day apart). *)
Theorem summary_default_window nowFrom nowTo db fromStr toStr :
  strings_TrimSpace fromStr = ""%string ->
  strings_TrimSpace toStr = ""%string ->
  nowFrom <= nowTo < nowFrom + 86400 ->
  exists r,
    summary nowFrom nowTo db fromStr toStr = StatusOK r
    /\ map DailyPoint.Date (SummaryResponse.ByDay r)
       = map (fun k => time_Format (time_AddDate_days nowFrom (k - 29)))
             (seqZ 0 30)
    /\ length (SummaryResponse.ByDay r) = 30%nat.
Proof.
  intros Hf Ht Hnow. unfold summary, dateParam. rewrite Hf, Ht. cbn.
  eexists. split; [reflexivity |].
  assert (Hdates :
    map DailyPoint.Date
      (SummaryResponse.ByDay
         (summarize (findBetween db (time_AddDate_days nowFrom (-29)) nowTo)
            (time_AddDate_days nowFrom (-29)) nowTo))
    = map (fun k => time_Format (time_AddDate_days nowFrom (k - 29)))
          (seqZ 0 30)).
  { rewrite summarize_ByDay, <- list_fmap_compose.
    unfold dayRange, time_AddDate_days.
    destruct (Z.ltb_spec nowTo (nowFrom + -29 * 86400)) as [? | _]; [lia |].
    replace ((nowTo - (nowFrom + -29 * 86400)) / 86400) with 29
      by (apply Z.div_unique with
            (r := nowTo - (nowFrom + -29 * 86400) - 86400 * 29); lia).
    rewrite <- list_fmap_compose. apply list_fmap_ext.
    intros _ k _. cbn. f_equal. lia. }
  split; [exact Hdates |].
  rewrite <- (length_map DailyPoint.Date), Hdates, length_map.
  now rewrite length_seqZ.
Qed.

(** X11. Between two midnights, the first not after the last, the series
    has exactly one point for every day from the first to the last, both
    included and in order; each carries the date of its day and the float
    sum of the fetched records whose date formats to it (0 for none). *)
Theorem by_day_between_midnights items a b :
  a <= b ->
  SummaryResponse.ByDay (summarize items (86400 * a) (86400 * b))
  = map (fun day =>
           DailyPoint.mk (time_Format (86400 * day))
             (fsum (map Activity.EmissionKg
                      (filter (fun it => time_Format (Activity.Date it)
                                         = time_Format (86400 * day))
                              items))))
        (seqZ a (b - a + 1))
  /\ length (SummaryResponse.ByDay (summarize items (86400 * a) (86400 * b)))
     = Z.to_nat (b - a + 1).
Proof.
  intros Hab.
  assert (H : SummaryResponse.ByDay (summarize items (86400 * a) (86400 * b))
              = map (fun day =>
                  DailyPoint.mk (time_Format (86400 * day))
                    (fsum (map Activity.EmissionKg
                       (filter (fun it => time_Format (Activity.Date it)
                                          = time_Format (86400 * day))
                               items))))
                  (seqZ a (b - a + 1))).
  { rewrite summarize_ByDay, dayRange_midnights by exact Hab.
    now rewrite <- list_fmap_compose. }
  split; [exact H |]. now rewrite H, length_map, length_seqZ.
Qed.

(** X12. When no row of the table has its instant in the range, the
    total is 0, there is no bucket, and the series still has its point
    for every day stepped through, each with 0. *)
Theorem summary_without_records db from to :
  (forall it, it ∈ db -> ~ (from <= Activity.Date it <= to)) ->
  summarize (findBetween db from to) from to
  = SummaryResponse.mk (time_Format from) (time_Format to) 0%float ∅
      (map (fun d => DailyPoint.mk (time_Format d) 0%float)
           (dayRange from to)).
Proof.
  intros Hnone. rewrite findBetween_none by exact Hnone.
  apply summarize_nil.
Qed.

(** X13. A record just created is in every summary whose range holds its
    stored instant, bounds included: it is among the fetched items and
    its category, as sent, has a bucket; when its instant is a whole
    number of days after [from], the series has a point for its date. *)
Theorem created_record_in_summary now db dto row db' from to :
  createActivity now db dto = (StatusOK row, db') ->
  from <= Activity.Date row <= to ->
  let r := summarize (findBetween db' from to) from to in
  row ∈ findBetween db' from to
  /\ is_Some (SummaryResponse.ByCategory r !! CreateActivityDTO.Category dto)
  /\ ((Activity.Date row - from) mod 86400 = 0 ->
      exists p, p ∈ SummaryResponse.ByDay r
                /\ DailyPoint.Date p = time_Format (Activity.Date row)).
Proof.
  intros Hcreate Hrange r.
  assert (Hcat : Activity.Category row = CreateActivityDTO.Category dto).
  { unfold createActivity in Hcreate.
    destruct (_ || _); [discriminate |].
    destruct (if String.eqb _ _ then _ else _); [| discriminate].
    cbn in Hcreate. now injection Hcreate as <- _. }
  destruct (createActivity_ok _ _ _ _ _ Hcreate) as [-> _].
  assert (Hin : row ∈ findBetween (db ++ [row]) from to).
  { apply findBetween_elem. split; [| exact Hrange].
    apply elem_of_app. right. left. }
  split; [exact Hin |]. split.
  - subst r. unfold summarize, roundMap.
    cbn [SummaryResponse.ByCategory]. rewrite lookup_fmap.
    destruct (byCat (sumItems (findBetween (db ++ [row]) from to))
                !! CreateActivityDTO.Category dto) as [x |] eqn:Hc;
      [cbn; eauto |].
    apply sumItems_byCat_None in Hc. rewrite Forall_forall in Hc.
    now apply Hc in Hin.
  - intros Hmod. subst r. rewrite summarize_ByDay.
    match goal with
    | |- context [map ?f (dayRange from to)] =>
        exists (f (Activity.Date row)); split; [| reflexivity];
        apply (list_elem_of_fmap_2 f)
    end.
    unfold dayRange.
    destruct (Z.ltb_spec to from) as [? | _]; [lia |].
    apply list_elem_of_fmap.
    exists ((Activity.Date row - from) / 86400). split.
    + unfold time_AddDate_days.
      pose proof (Z.div_mod (Activity.Date row - from) 86400). lia.
    + apply elem_of_seqZ.
      assert ((Activity.Date row - from) / 86400 <= (to - from) / 86400)
        by (apply Z.div_le_mono; lia).
      assert (0 <= (Activity.Date row - from) / 86400)
        by (apply Z.div_pos; lia).
      lia.
Qed.

(** X14. The rows the summary fetches are the rows of the table whose
    instant lies between the two bounds, bounds included, each once, in
    ascending order of date. *)
Theorem findBetween_sorted_permutation db from to :
  findBetween db from to
  ≡ₚ filter (fun it => from <= Activity.Date it <= to) db
  /\ Sorted byDate (findBetween db from to).
Proof.
  unfold findBetween. split; [| apply orderByDate_sorted].
  rewrite orderByDate_perm.
  induction db as [| x db IH]; [reflexivity |].
  rewrite (filter_cons (fun it : Activity.t => from <= Activity.Date it <= to)
             x db).
  cbn [List.filter].
  destruct (Z.leb_spec from (Activity.Date x));
    destruct (Z.leb_spec (Activity.Date x) to); cbn [andb];
    destruct (decide (from <= Activity.Date x <= to)); try lia;
    now rewrite IH.
Qed.

(** ** The loop of [roundMap] *)

Lemma roundMapRange_foldr entries (acc : gmap string float) :
  fold_left (fun out kv => <[kv.1 := round2 kv.2]> out) entries acc
  = foldr (fun kv out => <[kv.1 := round2 kv.2]> out) acc (reverse entries).
Proof.
  revert acc. induction entries as [| kv l IH]; intros acc; [reflexivity |].
  cbn [fold_left]. now rewrite reverse_cons, IH, foldr_app.
Qed.

Lemma foldr_insert_list_to_map (f : float -> float) (l : list (string * float)) :
  foldr (fun kv out => <[kv.1 := f kv.2]> out) (∅ : gmap string float) l
  = list_to_map (prod_map id f <$> l).
Proof.
  induction l as [| [k v] l IH]; [reflexivity |]. cbn. now rewrite IH.
Qed.

(** X15. Whatever the order in which the map is ranged over, the loop of
    [roundMap] ends with the same map: the keys of the input, each with
    its value rounded. *)
Theorem roundMap_any_order (m : gmap string float) entries :
  entries ≡ₚ map_to_list m ->
  roundMapRange entries = roundMap m
  /\ dom (roundMapRange entries) = dom m.
Proof.
  intros Hperm.
  assert (H : roundMapRange entries = roundMap m).
  { unfold roundMapRange, roundMap.
    rewrite roundMapRange_foldr, foldr_insert_list_to_map.
    rewrite <- (list_to_map_to_list m) at 1. rewrite <- list_to_map_fmap.
    apply list_to_map_proper.
    - rewrite <- list_fmap_compose.
      rewrite (list_fmap_ext (fst ∘ prod_map id round2) fst
                 (reverse entries))
        by (intros _ [] _; reflexivity).
      rewrite fmap_reverse, reverse_Permutation, Hperm.
      apply NoDup_fst_map_to_list.
    - now rewrite reverse_Permutation, Hperm. }
  split; [exact H |]. rewrite H. unfold roundMap. apply dom_fmap_L.
Qed.

End Handlers.

Section Form.
Context {lib : GoLib}.

(** X16. Every choice the page's form offers reaches a row of the factor
    table: with category and type as the submit handler sends them (in
    lowercase already) and, for "other", the unit the form fills in, the
    calculator answers with that row's formula and never with the 0 it
    keeps for what it does not recognise. *)
Theorem form_choices_recognised cat types t qty meta :
  In (cat, types) Frontend.typesByCategory ->
  In t types ->
  let typ := Frontend.payloadType cat t in
  let unit := Frontend.defaultUnit t in
  strings_ToLower cat = cat ->
  strings_ToLower typ = typ ->
  (cat = "other"%string -> strings_ToLower unit = "kgco2e"%string) ->
  let kg := computeEmission cat typ qty unit meta in
  FactorTable.mem cat typ = true
  /\ ((exists f, In (cat, typ, f) FactorTable.perUnit
                 /\ kg = round2 (qty * f))
      \/ (exists k, In (cat, typ, k) FactorTable.flat /\ kg = k)
      \/ (In (cat, typ) FactorTable.zero /\ kg = 0%float)
      \/ (cat = "shopping"%string /\ kg = round2 (qty / 1000.0 * 1.5))
      \/ (cat = "other"%string /\ kg = round2 qty)).
Proof.
  intros Hcat Ht typ unit Hlc Hlt Hlu kg. subst typ unit kg.
  cbn in Hcat.
  repeat (destruct Hcat as [Hcat | Hcat];
          [injection Hcat as <- <-; cbn in Ht |]); [.. | destruct Hcat];
    repeat (destruct Ht as [<- | Ht]); try destruct Ht;
    (split; [reflexivity |]);
    unfold computeEmission; rewrite Hlc, Hlt; try rewrite (Hlu eq_refl);
    first
      [ left; eexists; split; [| reflexivity]; cbn; tauto
      | right; left; eexists; split; [| reflexivity]; cbn; tauto
      | right; right; left; split; [cbn; tauto | reflexivity]
      | right; right; right; left; split; reflexivity
      | right; right; right; right; split; reflexivity ].
Qed.

End Form.

Section Totals.
Context {lib : GoLib}.

Lemma allFrom_spec f n :
  forall k, allFrom f k n = true ->
            forall i, k <= i < k + Z.of_nat n -> f i = true.
Proof.
  induction n as [| n IH]; intros k Hall i Hi; [lia |].
  cbn [allFrom] in Hall. apply andb_prop in Hall as [Hk Hrest].
  destruct (Z.eq_dec i k) as [-> | Hne]; [exact Hk |].
  apply (IH (k + 1) Hrest). lia.
Qed.

Lemma keepsHundredth_checked :
  allFrom keepsHundredth (-100000) (Z.to_nat 200001) = true.
Proof. vm_compute. reflexivity. Qed.

Lemma hundredth_stable k :
  -100000 <= k <= 100000 ->
  round2 (float64 k / 100) = (float64 k / 100)%float
  /\ (0 + float64 k / 100 = float64 k / 100)%float.
Proof.
  intros Hk.
  pose proof (allFrom_spec _ _ _ keepsHundredth_checked k) as H.
  unfold keepsHundredth in H.
  destruct (andb_prop _ _ (H ltac:(lia))) as [H1 H2].
  split; now apply Leibniz.eqb_spec.
Qed.

(** X17. The breakdown has one bucket for each category that a fetched
    record carries, spelled as the record stores it, and no other. *)
Theorem by_category_keys items from to :
  dom (SummaryResponse.ByCategory (summarize items from to))
  = list_to_set (Activity.Category <$> items) :> gset string.
Proof.
  apply set_eq. intros c.
  rewrite elem_of_dom, elem_of_list_to_set, list_elem_of_fmap.
  unfold summarize, roundMap. cbn [SummaryResponse.ByCategory].
  rewrite lookup_fmap, fmap_is_Some, <- not_eq_None_Some.
  rewrite sumItems_byCat_None. split.
  - intros Hnot. apply not_Forall_Exists in Hnot; [| intros ?; apply _].
    apply Exists_exists in Hnot as (it & Hin & Hc).
    exists it. split; [| exact Hin].
    destruct (decide (Activity.Category it = c)) as [-> | ?];
      [reflexivity | contradiction].
  - intros (it & -> & Hin) Hall. rewrite Forall_forall in Hall.
    now apply (Hall it Hin).
Qed.

(** X18. Rounding again changes nothing: [round2] gives back every
    two-decimal value from -1000.00 to 1000.00 (the float of [k]
    hundredths for [k] from -100000 to 100000). *)
Theorem round2_keeps_hundredths k :
  -100000 <= k <= 100000 ->
  round2 (float64 k / 100) = (float64 k / 100)%float.
Proof. intros Hk. now apply hundredth_stable. Qed.

(** X19. A summary over a single fetched record whose [emission_kg] is a
    two-decimal value between -1000.00 and 1000.00 reports exactly that
    value as the total, as the one bucket, and at every point of the
    record's date; the other points carry 0. *)
Theorem summary_single_record it from to k :
  Activity.EmissionKg it = (float64 k / 100)%float ->
  -100000 <= k <= 100000 ->
  let r := summarize [it] from to in
  SummaryResponse.TotalKg r = Activity.EmissionKg it
  /\ SummaryResponse.ByCategory r
     = {[ Activity.Category it := Activity.EmissionKg it ]}
  /\ (forall p, p ∈ SummaryResponse.ByDay r ->
        DailyPoint.Kg p
        = if decide (DailyPoint.Date p = time_Format (Activity.Date it))
          then Activity.EmissionKg it else 0%float).
Proof.
  intros He Hk r. destruct (hundredth_stable k Hk) as [Hround Hzero].
  rewrite <- He in Hround, Hzero. split; [| split].
  - subst r. unfold summarize. cbn. now rewrite Hzero.
  - subst r. unfold summarize, roundMap. cbn. unfold addAt.
    rewrite lookup_empty. cbn [default]. rewrite Hzero.
    rewrite insert_empty, map_fmap_singleton. now rewrite Hround.
  - intros p Hin. subst r. rewrite summarize_ByDay in Hin.
    apply list_elem_of_fmap in Hin as (d & -> & _).
    cbn [DailyPoint.Kg DailyPoint.Date].
    rewrite filter_cons, filter_nil.
    destruct (decide (time_Format (Activity.Date it) = time_Format d));
      destruct (decide (time_Format d = time_Format (Activity.Date it)));
      try congruence; cbn; [exact Hzero | reflexivity].
Qed.

End Totals.

Section DeleteThenSummary.
Context {lib : GoLib}.

Lemma insertByDate_front it l :
  (forall z, head l = Some z -> byDate it z) ->
  insertByDate it l = it :: l.
Proof.
  destruct l as [| y l]; cbn; [reflexivity |]. intros H.
  specialize (H y eq_refl). unfold byDate in H.
  now destruct (Z.leb_spec (Activity.Date it) (Activity.Date y)); [| lia].
Qed.

Lemma filter_insertByDate p it l :
  StronglySorted byDate l ->
  List.filter p (insertByDate it l)
  = if p it then insertByDate it (List.filter p l) else List.filter p l.
Proof.
  induction l as [| y l IH]; intros Hs; [cbn; now destruct (p it) |].
  inversion Hs as [| ? ? Hl Hall]; subst. cbn [insertByDate].
  destruct (Z.leb_spec (Activity.Date it) (Activity.Date y)) as [Hle | Hgt].
  - change (List.filter p (it :: y :: l))
      with (if p it then it :: List.filter p (y :: l)
            else List.filter p (y :: l)).
    destruct (p it); [| reflexivity].
    symmetry. apply insertByDate_front. intros z Hz.
    assert (Hin : In z (List.filter p (y :: l))).
    { destruct (List.filter p (y :: l)) as [| z' fl]; [discriminate |].
      injection Hz as ->. now left. }
    apply filter_In in Hin as [[<- | Hin] _]; [exact Hle |].
    rewrite Forall_forall in Hall.
    apply list_elem_of_In, Hall in Hin. unfold byDate in *. lia.
  - change (List.filter p (y :: insertByDate it l))
      with (if p y then y :: List.filter p (insertByDate it l)
            else List.filter p (insertByDate it l)).
    rewrite (IH Hl). cbn [List.filter].
    destruct (p y), (p it); cbn [insertByDate]; try reflexivity;
      now destruct (Z.leb_spec (Activity.Date it) (Activity.Date y));
        [lia |].
Qed.

Lemma orderByDate_filter p l :
  orderByDate (List.filter p l) = List.filter p (orderByDate l).
Proof.
  induction l as [| x l IH]; [reflexivity |].
  cbn [List.filter orderByDate fold_right].
  fold (orderByDate l).
  rewrite filter_insertByDate.
  - destruct (p x); [| exact IH]. cbn [orderByDate fold_right].
    fold (orderByDate (List.filter p l)). now rewrite IH.
  - apply Sorted_StronglySorted; [| apply orderByDate_sorted].
    intros a b c. unfold byDate. lia.
Qed.

Lemma filter_filter_comm {A} (p q : A -> bool) l :
  List.filter p (List.filter q l) = List.filter q (List.filter p l).
Proof.
  induction l as [| x l IH]; [reflexivity |]. cbn.
  destruct (p x) eqn:Hp, (q x) eqn:Hq; cbn; rewrite ?Hp, ?Hq, IH; reflexivity.
Qed.

(** X20. After a deletion, what any summary fetches is what it fetched
    before without the rows of the deleted id; the other records stay
    where they were. *)
Theorem findBetween_after_delete db idStr id db' from to :
  deleteActivity db idStr = (StatusOK id, db') ->
  findBetween db' from to = db_Delete (findBetween db from to) id.
Proof.
  unfold deleteActivity. destruct (Strconv.Atoi idStr) as [id' |];
    [| discriminate].
  intros H. injection H as -> <-.
  unfold findBetween, db_Delete.
  now rewrite filter_filter_comm, orderByDate_filter.
Qed.

End DeleteThenSummary.

(** * Worked examples for the handlers *)

Section HandlerExamples.
Local Existing Instance Reference.lib.
Local Open Scope float_scope.

(** 2025-08-10 at 15:00:00 UTC, and the midnights of 2025-08-09 and
    2025-08-10 *)
Local Abbreviation afternoon := 1754838000%Z.
Local Abbreviation aug09 := 1754697600%Z.
Local Abbreviation aug10 := 1754784000%Z.

Local Abbreviation trip :=
  (Activity.mk 1 "transport" "car" 20 "km" "{}" 3.84 aug10 afternoon).
Local Abbreviation meal :=
  (Activity.mk 2 "food" "vegan_day" 1 "day" "{}" 2 aug09 afternoon).

Lemma deleteActivity_absent_id_witness :
  deleteActivity [trip; meal] "7" = (StatusOK 7%Z, [trip; meal])
  /\ deleteActivity [meal] "1" = (StatusOK 1%Z, [meal]).
Proof.
  split.
  - destruct (deleteActivity_absent_id [trip; meal] "7" 7%Z eq_refl)
      as [Habsent _].
    apply Habsent. intros row Hin.
    apply elem_of_cons in Hin as [-> | Hin]; [discriminate |].
    apply list_elem_of_singleton in Hin as ->. discriminate.
  - destruct (deleteActivity_absent_id [trip; meal] "1" 1%Z eq_refl)
      as [_ Hagain].
    apply Hagain. reflexivity.
Defined.

Lemma listActivities_after_delete_witness :
  exists before after,
    listActivities [trip; meal] = StatusOK before
    /\ listActivities [meal] = StatusOK after
    /\ after = db_Delete before 1%Z.
Proof.
  apply (listActivities_after_delete [trip; meal] "1" 1%Z [meal]).
  reflexivity.
Defined.

Lemma create_then_delete_witness :
  deleteActivity [meal; Activity.mk 3 "transport" "car" 20 "km" "{}" 3.84
                          aug10 afternoon] "3"
  = (StatusOK 3%Z, [meal]).
Proof.
  apply (create_then_delete afternoon [meal]
           (CreateActivityDTO.mk "transport" "car" 20 "km" None "2025-08-10")
           (Activity.mk 3 "transport" "car" 20 "km" "{}" 3.84 aug10 afternoon)).
  - vm_compute. reflexivity.
  - reflexivity.
Defined.

Lemma listActivities_after_create_witness :
  exists before after,
    listActivities [meal] = StatusOK before
    /\ listActivities
         [meal; Activity.mk 3 "transport" "car" 20 "km" "{}" 3.84
                  aug10 afternoon]
       = StatusOK after
    /\ after ≡ₚ Activity.mk 3 "transport" "car" 20 "km" "{}" 3.84
                  aug10 afternoon :: before.
Proof.
  apply (listActivities_after_create afternoon [meal]
           (CreateActivityDTO.mk "transport" "car" 20 "km" None "2025-08-10")).
  vm_compute. reflexivity.
Defined.

Lemma summary_reversed_range_witness :
  summary afternoon afternoon [trip; meal] "2025-08-10" "2025-08-09"
  = StatusOK (SummaryResponse.mk "2025-08-10" "2025-08-09" 0 ∅ []).
Proof.
  rewrite (summary_reversed_range afternoon afternoon [trip; meal]
             "2025-08-10" "2025-08-09" aug10 aug09);
    [vm_compute; reflexivity | discriminate | discriminate
    | reflexivity | reflexivity | reflexivity].
Defined.

Lemma summary_default_window_witness :
  exists r,
    summary afternoon afternoon [trip; meal] "" "" = StatusOK r
    /\ map DailyPoint.Date (SummaryResponse.ByDay r)
       = map (fun k => time_Format (time_AddDate_days afternoon (k - 29)))
             (seqZ 0 30)
    /\ length (SummaryResponse.ByDay r) = 30%nat.
Proof.
  apply (summary_default_window afternoon afternoon [trip; meal] "" "");
    [reflexivity | reflexivity | lia].
Defined.

Lemma by_day_between_midnights_witness :
  length (SummaryResponse.ByDay
            (summarize [meal; trip] (86400 * 20309)%Z (86400 * 20310)%Z))
  = 2%nat.
Proof.
  apply (by_day_between_midnights [meal; trip] 20309%Z 20310%Z). lia.
Defined.

Lemma summary_without_records_witness :
  summarize (findBetween [trip; meal] 0%Z 86400%Z) 0%Z 86400%Z
  = SummaryResponse.mk "1970-01-01" "1970-01-02" 0 ∅
      [DailyPoint.mk "1970-01-01" 0; DailyPoint.mk "1970-01-02" 0].
Proof.
  rewrite (summary_without_records [trip; meal] 0%Z 86400%Z).
  - vm_compute. reflexivity.
  - intros it Hin.
    apply elem_of_cons in Hin as [-> | Hin]; [cbn; lia |].
    apply list_elem_of_singleton in Hin as ->. cbn. lia.
Defined.

Lemma created_record_in_summary_witness :
  let row := Activity.mk 3 "Transport" "car" 20 "km" "{}" 3.84 aug10
               afternoon in
  let r := summarize (findBetween [meal; row] aug09 aug10) aug09 aug10 in
  row ∈ findBetween [meal; row] aug09 aug10
  /\ is_Some (SummaryResponse.ByCategory r !! "Transport"%string)
  /\ exists p, p ∈ SummaryResponse.ByDay r
               /\ DailyPoint.Date p = "2025-08-10"%string.
Proof.
  intros row r.
  destruct (created_record_in_summary afternoon [meal]
              (CreateActivityDTO.mk "Transport" "car" 20 "km" None
                 "2025-08-10")
              row [meal; row] aug09 aug10)
    as (Hin & Hcat & Hday).
  - vm_compute. reflexivity.
  - cbn. lia.
  - split; [exact Hin |]. split; [exact Hcat |].
    apply Hday. reflexivity.
Defined.

Lemma roundMap_any_order_witness :
  let m : gmap string float := {[ "a" := 0.125; "b" := 2.675 ]}%string in
  roundMapRange (reverse (map_to_list m)) = {[ "a" := 0.13; "b" := 2.68 ]}%string.
Proof.
  intros m.
  destruct (roundMap_any_order m (reverse (map_to_list m))) as [-> _].
  - apply reverse_Permutation.
  - vm_compute. reflexivity.
Defined.

Lemma form_choices_recognised_witness :
  computeEmission "other" "custom" 5 "kgco2e" None = 5
  /\ FactorTable.mem "other" "custom" = true.
Proof.
  destruct (form_choices_recognised "other" ["custom_kgco2e"]%string
              "custom_kgco2e" 5 None)
    as (Hmem & Hkg); try reflexivity.
  - cbn. tauto.
  - now left.
  - split; [| exact Hmem]. vm_compute. reflexivity.
Defined.

Lemma round2_keeps_hundredths_witness :
  round2 (float64 384 / 100) = 3.84.
Proof.
  rewrite (round2_keeps_hundredths 384); [vm_compute; reflexivity | lia].
Defined.

Lemma summary_single_record_witness :
  let r := summarize [trip] aug09 aug10 in
  SummaryResponse.TotalKg r = 3.84
  /\ SummaryResponse.ByCategory r = {[ "transport"%string := 3.84 ]}.
Proof.
  intros r.
  destruct (summary_single_record trip aug09 aug10 384)
    as (Htotal & Hcat & _); [vm_compute; reflexivity | lia |].
  split; [exact Htotal | exact Hcat].
Defined.

Lemma findBetween_after_delete_witness :
  findBetween [meal] aug09 aug10
  = db_Delete (findBetween [trip; meal] aug09 aug10) 1%Z.
Proof.
  apply (findBetween_after_delete [trip; meal] "1" 1%Z [meal]). reflexivity.
Defined.

End HandlerExamples.
